(** * budgetBuddy backend: the SQLModel schema and the HTTP shell

    [src/main/models/sqlModels.py] declares seven mapped classes and two
    enumerations; [src/main/app.py] declares two GET handlers behind a CORS
    middleware.  The declarations are embedded as data, field by field, and
    given the meaning the object-relational mapper and a constraint-enforcing
    relational store give them: adding an object, changing an attribute and
    deleting an object, each inside one transaction. *)

From stdpp Require Import gmap strings list fin_maps.
From Stdlib Require Import ZArith Ascii String.

Local Open Scope Z_scope.
Local Open Scope string_scope.

(** ** Values held by attributes and columns *)

(** A Python [float] is kept as its IEEE-754 binary64 bit pattern, a
    [datetime] as microseconds since the epoch, an enumeration member by the
    name of its class and its own name. *)
Inductive value :=
  | VNull
  | VInt (z : Z)
  | VStr (s : string)
  | VBool (b : bool)
  | VFloat (bits : Z)
  | VDateTime (t : Z)
  | VEnum (cls member : string).

#[global] Instance value_eq_dec : EqDecision value.
Proof. solve_decision. Defined.

Definition is_null (v : value) : bool :=
  match v with VNull => true | _ => false end.

(** ** The error taxonomy of the data-model contract *)

Inductive error :=
  | ValidationError
  | UniquenessViolation
  | ReferentialIntegrityError
  | NoSuchRow.

#[global] Instance error_eq_dec : EqDecision error.
Proof. solve_decision. Defined.

Inductive result (A : Type) :=
  | Ok (a : A)
  | Err (e : error).
Arguments Ok {A} a.
Arguments Err {A} e.

#[global] Instance result_ret : MRet result := fun A a => Ok a.


Definition guard (b : bool) (e : error) : result unit :=
  if b then Ok tt else Err e.

(** ** Enumerations (sqlModels.py, lines 10-20) *)

(** An [enum.Enum] class: its name and its members, each a name and a value. *)
Record EnumClass := {
  enum_name : string;
  enum_members : list (string * string)
}.

#[global] Instance EnumClass_eq_dec : EqDecision EnumClass.
Proof. solve_decision. Defined.

Definition UserRole : EnumClass := {|
  enum_name := "UserRole";
  enum_members := [("MODERATOR", "moderator"); ("PARTICIPANT", "participant")]
|}.

Definition TripStatus : EnumClass := {|
  enum_name := "TripStatus";
  enum_members := [("PLANNING", "planning"); ("ACTIVE", "active");
                   ("COMPLETED", "completed"); ("CANCELLED", "cancelled")]
|}.

Definition member_names (e : EnumClass) : list string := (enum_members e).*1.

Definition is_member (e : EnumClass) (v : value) : bool :=
  match v with
  | VEnum c n => bool_decide (c = enum_name e) && bool_decide (n ∈ member_names e)
  | _ => false
  end.

(** [E(v)]: the call of an enumeration class looks a member up by its value
    (a member is returned as it is) and raises for anything else. *)
Definition enum_call (e : EnumClass) (v : value) : result value :=
  match v with
  | VEnum _ _ => if is_member e v then Ok v else Err ValidationError
  | VStr s =>
      match list_find (fun m => m.2 = s) (enum_members e) with
      | Some (_, m) => Ok (VEnum (enum_name e) m.1)
      | None => Err ValidationError
      end
  | _ => Err ValidationError
  end.

(** ** Field and relationship declarations *)

Inductive pytype :=
  | PyInt | PyStr | PyBool | PyFloat | PyDatetime
  | PyEnum (e : EnumClass).

#[global] Instance pytype_eq_dec : EqDecision pytype.
Proof. solve_decision. Defined.

Inductive annotation :=
  | Plain (t : pytype)
  | Optional (t : pytype).

#[global] Instance annotation_eq_dec : EqDecision annotation.
Proof. solve_decision. Defined.

(** The keyword arguments of [Field(...)] that the models use.  [default_ VNull]
    is [default=None] (also the bare [= None] of a class attribute),
    [sa_column_Enum e] is [sa_column=Column(Enum(e))] and [onupdate_utcnow] is
    [sa_column_kwargs={"onupdate": datetime.utcnow}].  A [description] only
    documents the field and is left out. *)
Inductive kwarg :=
  | default_ (v : value)
  | default_factory_utcnow
  | primary_key
  | index
  | unique
  | foreign_key (table column : string)
  | nullable (b : bool)
  | sa_column_Enum (e : EnumClass)
  | onupdate_utcnow.

#[global] Instance kwarg_eq_dec : EqDecision kwarg.
Proof. solve_decision. Defined.

Record FieldInfo := Field {
  f_name : string;
  f_annotation : annotation;
  f_kwargs : list kwarg
}.

#[global] Instance FieldInfo_eq_dec : EqDecision FieldInfo.
Proof. solve_decision. Defined.

Inductive rel_annotation :=
  | ListOf (cls : string)
  | Single (cls : string).

#[global] Instance rel_annotation_eq_dec : EqDecision rel_annotation.
Proof. solve_decision. Defined.

Record RelationshipInfo := Relationship {
  r_name : string;
  r_annotation : rel_annotation;
  r_back_populates : string;
  r_cascade : list string
}.

#[global] Instance RelationshipInfo_eq_dec : EqDecision RelationshipInfo.
Proof. solve_decision. Defined.

(** Without a [cascade] argument a relationship has the mapper's default.  A
    relationship is read by the class it is annotated with and the foreign
    key between the two tables; [back_populates] is kept as declared. *)
Definition default_cascade : list string := ["save-update"; "merge"].

Record Model := {
  m_class : string;
  m_fields : list FieldInfo;
  m_relationships : list RelationshipInfo
}.

#[global] Instance Model_eq_dec : EqDecision Model.
Proof. solve_decision. Defined.

(** ** The mapped classes (sqlModels.py, lines 24-155) *)

Definition TripParticipantLink : Model := {|
  m_class := "TripParticipantLink";
  m_fields := [
    Field "trip_id" (Plain PyInt) [foreign_key "trip" "id"; primary_key];
    Field "user_id" (Plain PyInt) [foreign_key "user" "id"; primary_key];
    Field "joined_at" (Plain PyDatetime) [default_factory_utcnow; nullable false];
    Field "is_active" (Plain PyBool) [default_ (VBool true)]
  ];
  m_relationships := []
|}.

Definition User : Model := {|
  m_class := "User";
  m_fields := [
    Field "id" (Optional PyInt) [default_ VNull; primary_key; index];
    Field "username" (Plain PyStr) [unique; index];
    Field "email" (Plain PyStr) [unique; index];
    Field "full_name" (Optional PyStr) [default_ VNull];
    Field "phone" (Optional PyStr) [default_ VNull];
    Field "hashed_password" (Plain PyStr) [];
    Field "is_active" (Plain PyBool) [default_ (VBool true)];
    Field "created_at" (Plain PyDatetime) [default_factory_utcnow; nullable false];
    Field "updated_at" (Plain PyDatetime)
      [default_factory_utcnow; onupdate_utcnow; nullable false]
  ];
  m_relationships := [
    Relationship "moderated_trips" (ListOf "Trip") "moderator" default_cascade;
    Relationship "trip_links" (ListOf "TripParticipantLink") "user" default_cascade;
    Relationship "paid_expenses" (ListOf "Expense") "payer" default_cascade;
    Relationship "personal_expenses" (ListOf "PersonalExpense") "user"
      ["all"; "delete-orphan"]
  ]
|}.

Definition Trip : Model := {|
  m_class := "Trip";
  m_fields := [
    Field "id" (Optional PyInt) [default_ VNull; primary_key; index];
    Field "title" (Plain PyStr) [];
    Field "description" (Optional PyStr) [default_ VNull];
    Field "destination" (Plain PyStr) [];
    Field "start_date" (Plain PyDatetime) [];
    Field "end_date" (Plain PyDatetime) [];
    Field "estimated_budget" (Optional PyFloat) [default_ VNull];
    Field "actual_budget" (Plain PyFloat) [default_ (VFloat 0)];
    Field "invitation_code" (Plain PyStr) [unique];
    Field "status" (Plain (PyEnum TripStatus))
      [sa_column_Enum TripStatus; default_ (VEnum "TripStatus" "PLANNING")];
    Field "created_at" (Plain PyDatetime) [default_factory_utcnow; nullable false];
    Field "updated_at" (Plain PyDatetime)
      [default_factory_utcnow; onupdate_utcnow; nullable false];
    Field "moderator_id" (Plain PyInt) [foreign_key "user" "id"]
  ];
  m_relationships := [
    Relationship "moderator" (Single "User") "moderated_trips" default_cascade;
    Relationship "participant_links" (ListOf "TripParticipantLink") "trip"
      default_cascade;
    Relationship "days" (ListOf "TripDay") "trip" ["all"; "delete-orphan"];
    Relationship "expenses" (ListOf "Expense") "trip" ["all"; "delete-orphan"]
  ]
|}.

Definition TripDay : Model := {|
  m_class := "TripDay";
  m_fields := [
    Field "id" (Optional PyInt) [default_ VNull; primary_key; index];
    Field "day_number" (Plain PyInt) [];
    Field "date" (Plain PyDatetime) [];
    Field "title" (Optional PyStr) [default_ VNull];
    Field "description" (Optional PyStr) [default_ VNull];
    Field "trip_id" (Plain PyInt) [foreign_key "trip" "id"]
  ];
  m_relationships := [
    Relationship "trip" (Single "Trip") "days" default_cascade;
    Relationship "activities" (ListOf "Activity") "day" ["all"; "delete-orphan"]
  ]
|}.

Definition Activity : Model := {|
  m_class := "Activity";
  m_fields := [
    Field "id" (Optional PyInt) [default_ VNull; primary_key; index];
    Field "name" (Plain PyStr) [];
    Field "description" (Optional PyStr) [default_ VNull];
    Field "start_time" (Plain PyDatetime) [];
    Field "end_time" (Optional PyDatetime) [default_ VNull];
    Field "tag" (Plain PyStr) [];
    Field "location" (Optional PyStr) [default_ VNull];
    Field "notes" (Optional PyStr) [default_ VNull];
    Field "day_id" (Plain PyInt) [foreign_key "tripday" "id"]
  ];
  m_relationships := [
    Relationship "day" (Single "TripDay") "activities" default_cascade;
    Relationship "expenses" (ListOf "Expense") "activity" default_cascade
  ]
|}.

Definition Expense : Model := {|
  m_class := "Expense";
  m_fields := [
    Field "id" (Optional PyInt) [default_ VNull; primary_key; index];
    Field "description" (Plain PyStr) [];
    Field "amount" (Plain PyFloat) [];
    Field "receipt_url" (Optional PyStr) [default_ VNull];
    Field "created_at" (Plain PyDatetime) [default_factory_utcnow; nullable false];
    Field "trip_id" (Plain PyInt) [foreign_key "trip" "id"];
    Field "payer_id" (Plain PyInt) [foreign_key "user" "id"];
    Field "activity_id" (Optional PyInt) [default_ VNull; foreign_key "activity" "id"]
  ];
  m_relationships := [
    Relationship "trip" (Single "Trip") "expenses" default_cascade;
    Relationship "payer" (Single "User") "paid_expenses" default_cascade;
    Relationship "activity" (Single "Activity") "expenses" default_cascade
  ]
|}.

Definition PersonalExpense : Model := {|
  m_class := "PersonalExpense";
  m_fields := [
    Field "id" (Optional PyInt) [default_ VNull; primary_key; index];
    Field "title" (Plain PyStr) [];
    Field "description" (Optional PyStr) [default_ VNull];
    Field "amount" (Plain PyFloat) [];
    Field "date" (Plain PyDatetime) [default_factory_utcnow; nullable false];
    Field "user_id" (Plain PyInt) [foreign_key "user" "id"]
  ];
  m_relationships := [
    Relationship "user" (Single "User") "personal_expenses" default_cascade
  ]
|}.

(** The classes registered in [SQLModel.metadata], in declaration order. *)
Definition models : list Model :=
  [TripParticipantLink; User; Trip; TripDay; Activity; Expense; PersonalExpense].

(** ** What the mapper derives from the declarations *)

(** The table of a class is named by the class name in lower case. *)
Definition lower_ascii (c : ascii) : ascii :=
  let n := nat_of_ascii c in
  if ((65 <=? n) && (n <=? 90))%nat then ascii_of_nat (n + 32) else c.

Fixpoint lower (s : string) : string :=
  match s with
  | EmptyString => EmptyString
  | String c rest => String (lower_ascii c) (lower rest)
  end.

Definition tablename (m : Model) : string := lower (m_class m).

Definition find_model (cls : string) : option Model :=
  head (filter (fun m => m_class m = cls) models).

Definition kw_primary_key (f : FieldInfo) : bool :=
  existsb (fun k => match k with primary_key => true | _ => false end) (f_kwargs f).

Definition kw_unique (f : FieldInfo) : bool :=
  existsb (fun k => match k with unique => true | _ => false end) (f_kwargs f).

Definition kw_onupdate (f : FieldInfo) : bool :=
  existsb (fun k => match k with onupdate_utcnow => true | _ => false end) (f_kwargs f).

Definition kw_foreign_key (f : FieldInfo) : option (string * string) :=
  head (omap (fun k => match k with foreign_key t c => Some (t, c) | _ => None end)
             (f_kwargs f)).

Definition kw_nullable (f : FieldInfo) : option bool :=
  head (omap (fun k => match k with nullable b => Some b | _ => None end) (f_kwargs f)).

Definition kw_sa_column (f : FieldInfo) : option EnumClass :=
  head (omap (fun k => match k with sa_column_Enum e => Some e | _ => None end)
             (f_kwargs f)).

Record Column := {
  col_name : string;
  col_type : pytype;
  col_primary_key : bool;
  col_nullable : bool;
  col_unique : bool;
  col_foreign_key : option (string * string);
  col_onupdate : bool
}.

#[global] Instance Column_eq_dec : EqDecision Column.
Proof. solve_decision. Defined.

Definition annotated_type (a : annotation) : pytype :=
  match a with Plain t | Optional t => t end.

Definition is_field_noneable (f : FieldInfo) : bool :=
  match f_annotation f with Optional _ => true | Plain _ => false end.

(** An explicit [sa_column] is taken as it is: a plain [Column(Enum(e))] is
    nullable, not a key and not unique.  Otherwise the column is nullable when
    the field is not a primary key and is annotated [Optional], unless
    [nullable] is given. *)
Definition get_column_from_field (f : FieldInfo) : Column :=
  match kw_sa_column f with
  | Some e =>
      {| col_name := f_name f; col_type := PyEnum e;
         col_primary_key := false; col_nullable := true; col_unique := false;
         col_foreign_key := None; col_onupdate := false |}
  | None =>
      let pk := kw_primary_key f in
      {| col_name := f_name f; col_type := annotated_type (f_annotation f);
         col_primary_key := pk;
         col_nullable := match kw_nullable f with
                         | Some b => b
                         | None => negb pk && is_field_noneable f
                         end;
         col_unique := kw_unique f;
         col_foreign_key := kw_foreign_key f;
         col_onupdate := kw_onupdate f |}
  end.

Definition columns (m : Model) : list Column := get_column_from_field <$> m_fields m.

Definition column (m : Model) (name : string) : option Column :=
  head (filter (fun c => col_name c = name) (columns m)).

Definition pk_columns (m : Model) : list string :=
  col_name <$> filter (fun c => col_primary_key c) (columns m).




Definition cascades_delete (r : RelationshipInfo) : bool :=
  bool_decide ("all" ∈ r_cascade r) || bool_decide ("delete" ∈ r_cascade r).

(** The one-to-many relationships of a class, each with the class it lists. *)
Definition collections (m : Model) : list (RelationshipInfo * Model) :=
  omap (fun r => match r_annotation r with
                 | ListOf cls => (fun c => (r, c)) <$> find_model cls
                 | Single _ => None
                 end) (m_relationships m).

Definition delete_children (m : Model) : list Model :=
  (filter (fun rc => cascades_delete rc.1) (collections m)).*2.

Definition orphaned_children (m : Model) : list Model :=
  (filter (fun rc => negb (cascades_delete rc.1)) (collections m)).*2.

(** ** The store *)

Abbreviation row := (gmap string value).
Abbreviation store := (gmap string (list (gmap string value))).

Definition rows (s : store) (t : string) : list row := default [] (s !! t).

Definition field (r : row) (c : string) : value := default VNull (r !! c).

Definition key_of (cols : list string) (r : row) : list value := field r <$> cols.

Definition pk_of (m : Model) (r : row) : list value := key_of (pk_columns m) r.

(** [session.get(m, pk)] *)
Definition get (m : Model) (pk : list value) (s : store) : option row :=
  head (filter (fun x => pk_of m x = pk) (rows s (tablename m))).

Inductive outcome :=
  | Committed
  | RolledBack (e : error).

#[global] Instance outcome_eq_dec : EqDecision outcome.
Proof. solve_decision. Defined.

(** A unit of work runs on the store inside a transaction: it is committed
    whole, or rolled back to the state it started from. *)
Definition transaction (work : store -> result store) (s : store) : outcome * store :=
  match work s with
  | Ok s' => (Committed, s')
  | Err e => (RolledBack e, s)
  end.

(** ** Adding an object *)















(** ** Deleting an object *)

(** A child row is related to a parent through the join when each of its
    referencing columns holds the parent's value and none is NULL; two
    classes without a foreign key between them have no related rows. *)
Definition joined (js : list (string * string)) (parent child : row) : bool :=
  negb (bool_decide (js = []))
  && forallb (fun j => negb (is_null (field child j.1))
                       && bool_decide (field child j.1 = field parent j.2)) js.












(** A row of table [t] survives the deletion of [ds] when none of them is a
    row of [t] with its primary key. *)
Definition survives (ds : list (Model * row)) (t : string) (x : row) : Prop :=
  Forall (fun d => tablename d.1 = t -> pk_of d.1 x ≠ pk_of d.1 d.2) ds.

#[global] Instance survives_dec ds t x : Decision (survives ds t x).
Proof. unfold survives. apply _. Defined.



(** ** Changing an attribute *)




(** ** Reachable states *)





(** ** The HTTP shell (app.py) *)

Record CORSMiddleware := {
  allow_origins : list string;
  allow_credentials : bool;
  allow_methods : list string;
  allow_headers : list string
}.

Definition origins : list string :=
  ["http://localhost:5173"; "http://127.0.0.1:5173"].

Definition middleware : CORSMiddleware := {|
  allow_origins := origins;
  allow_credentials := true;
  allow_methods := ["*"];
  allow_headers := ["*"]
|}.

(** A handler's return value: a dict of strings, in insertion order. *)
Definition json := list (string * string).

Definition root : json := [("message", "FastAPI Backend Running")].

Definition ConnectionStatus : json := [("message", "FastAPI Backend Connected")].

(** The routes registered by [@app.get]. *)
Definition routes : list (string * string * json) :=
  [("GET", "/", root); ("GET", "/status", ConnectionStatus)].

Record request := {
  req_method : string;
  req_path : string;
  req_origin : option string
}.

Record response := {
  resp_status : Z;
  resp_body : json
}.

(** The middleware answers for an origin of its allow-list; it adds headers
    to a response and leaves the body as the handler returned it. *)
Definition is_allowed_origin (mw : CORSMiddleware) (origin : string) : bool :=
  bool_decide (origin ∈ allow_origins mw).

(** The application serves a request against the store.  The handlers take no
    argument and no session, so the store goes through as it came.  A request
    that matches no declared route is left to the framework's defaults. *)
Definition app (req : request) (s : store) : option response * store :=
  match list_find (fun rt => rt.1 = (req_method req, req_path req)) routes with
  | Some (_, rt) => (Some {| resp_status := 200; resp_body := rt.2 |}, s)
  | None => (None, s)
  end.

(** ** Well-keyed stores *)




(** ** Sample objects and stores *)

Module Sample.















End Sample.

(** ** References and unique keys of a whole store *)




(** [k] names a column of [m] that every UPDATE refreshes. *)
Definition refreshed (m : Model) (k : string) : Prop :=
  Exists (fun c => col_onupdate c = true /\ col_name c = k) (columns m).

#[global] Instance refreshed_dec m k : Decision (refreshed m k).
Proof. unfold refreshed. apply _. Defined.



(** * Properties *)

(** ** The store and the transaction *)





Lemma transaction_rolled_back work (s s' : store) e :
  transaction work s = (RolledBack e, s') -> s' = s.
Proof. unfold transaction. destruct (work s); congruence. Qed.

Lemma guard_true b e : b = true -> guard b e = Ok tt.
Proof. by intros ->. Qed.

Lemma guard_false b e : b = false -> guard b e = Err e.
Proof. by intros ->. Qed.



(** ** Construction and key assignment *)




(** ** Validation, uniqueness and foreign keys of a written row *)














(** ** The HTTP shell *)

(** C8: GET / answers exactly the body {"message": "FastAPI Backend Running"}
    and GET /status exactly {"message": "FastAPI Backend Connected"}, whatever
    the origin of the request and the state of the store, which is left as it
    was. *)
Theorem status_endpoints_exact (origin : option string) (s : store) :
  app {| req_method := "GET"; req_path := "/"; req_origin := origin |} s
  = (Some {| resp_status := 200;
             resp_body := [("message", "FastAPI Backend Running")] |}, s)
  /\ app {| req_method := "GET"; req_path := "/status"; req_origin := origin |} s
     = (Some {| resp_status := 200;
                resp_body := [("message", "FastAPI Backend Connected")] |}, s).
Proof. split; reflexivity. Qed.

(** ** Uniqueness *)



(** ** Foreign keys *)





(** ** Enumerations *)





(** ** The schema, as the mapper reads it *)

Lemma tablenames :
  tablename <$> models
  = ["tripparticipantlink"; "user"; "trip"; "tripday"; "activity"; "expense";
     "personalexpense"].
Proof. reflexivity. Qed.

Lemma delete_children_of :
  delete_children <$> models
  = [[]; [PersonalExpense]; [TripDay; Expense]; [Activity]; []; []; []].
Proof. reflexivity. Qed.

Lemma orphaned_children_of :
  orphaned_children <$> models
  = [[]; [Trip; TripParticipantLink; Expense]; [TripParticipantLink]; [];
     [Expense]; []; []].
Proof. reflexivity. Qed.

(** Every foreign key of the schema is the join of a one-to-many relationship
    declared on the class it references. *)
Lemma foreign_keys_are_relationships :
  Forall (fun c =>
    Forall (fun col =>
      match col_foreign_key col with
      | Some (t, _) =>
          Exists (fun p => tablename p = t
                           /\ c ∈ (delete_children p ++ orphaned_children p)%list) models
      | None => True
      end) (columns c)) models.
Proof.
  repeat (apply Forall_cons; split); try apply Forall_nil; cbn; try exact I.
  all: apply Exists_exists.
  all: first
    [ exists User; split; [compute_done|split; [reflexivity|compute_done]]
    | exists Trip; split; [compute_done|split; [reflexivity|compute_done]]
    | exists TripDay; split; [compute_done|split; [reflexivity|compute_done]]
    | exists Activity; split; [compute_done|split; [reflexivity|compute_done]] ].
Qed.


Lemma joined_nil (r x : row) : joined [] r x = false.
Proof. reflexivity. Qed.


(** ** The delete cascade *)









(** ** The two phases of a delete: removing rows, blanking references *)











(** ** Deleting a trip *)






Lemma get_None (m : Model) (pk : list value) (s : store) (x : row) :
  get m pk s = None -> x ∈ rows s (tablename m) -> pk_of m x ≠ pk.
Proof.
  unfold get. intros H Hx Hpk. apply head_None in H.
  by apply (filter_nil_not_elem_of (fun x => pk_of m x = pk) _ x H Hpk).
Qed.

Lemma get_is_Some (m : Model) (pk : list value) (s : store) (x : row) :
  x ∈ rows s (tablename m) -> pk_of m x = pk -> is_Some (get m pk s).
Proof.
  intros Hx Hpk. destruct (get m pk s) eqn:H; [done|].
  by destruct (get_None m pk s x H Hx).
Qed.










(** ** Primary keys are kept: the invariant of the reachable states *)

































(** ** Participant links *)


(** ** Deleting a user *)









(** ** Stored rows stay valid *)














(** ** The sample stores are reachable *)





(** ** Enumerated columns *)






(** ** What the schema leaves unchecked *)


(** ** The theorems at work on the sample stores *)






(** * Further properties of the code *)

(** ** Referential integrity of the reachable states *)













(** *** What blanking does to the rows that stay *)












(** *** Blanked references stay blank *)







(** *** The cascade is closed *)








(** ** Unique keys of the reachable states *)














(** ** What holds of every reachable state *)











(** ** Adding an object *)







(** *** The key the store assigns *)





(** *** Defaults and required fields *)










(** ** Changing an attribute *)







(** ** Deleting the other objects *)




(** *** An activity *)



(** *** A day *)






(** *** A trip, and what it spares *)



(** ** Looking a member up by its value *)

(** X15: the call of an enumeration class on a string returns the member
    of that value, and only that one: [UserRole] and [TripStatus] have no two
    members of the same value, so every member is reached by its own value. *)
Theorem enum_lookup_by_value (e : EnumClass) (n v : string) :
  e ∈ [UserRole; TripStatus] ->
  enum_call e (VStr v) = Ok (VEnum (enum_name e) n) <-> (n, v) ∈ enum_members e.
Proof.
  intros He. split.
  - unfold enum_call.
    destruct (list_find _ _) as [[i [n' v']]|] eqn:Hfind; [|discriminate].
    apply list_find_Some in Hfind as (Hi & Hv & _). cbn in Hv. subst v'.
    intros [= <-]. by eapply list_elem_of_lookup_2.
  - intros Hin.
    repeat (apply elem_of_cons in He as [->|He];
            [repeat (apply elem_of_cons in Hin as [[= -> ->]|Hin]; [reflexivity|]);
             by apply elem_of_nil in Hin|]).
    by apply elem_of_nil in He.
Qed.

Lemma enum_lookup_by_value_witness :
  enum_call TripStatus (VStr "active") = Ok (VEnum "TripStatus" "ACTIVE")
  <-> ("ACTIVE", "active") ∈ enum_members TripStatus.
Proof.
  apply (enum_lookup_by_value TripStatus "ACTIVE" "active"). compute_done.
Defined.
